(** * djangae.contrib.googleauth.models: a shallow embedding

    The module defines the identity factory [UserManager], the
    [AnonymousUser] null object, the [User] model and the OAuth session
    record.  Python objects are embedded as follows:

    - a Python value that the code inspects dynamically ([None], [True],
      a string, ...) is a [pyval];
    - a keyword dictionary ([**extra_fields]) and a model instance are
      finite maps from attribute names to values;
    - an exception is a value of [exn]; a call that may raise returns a
      [result];
    - the persistent store is threaded explicitly through the factory. *)

From Stdlib Require Import ZArith Ascii String List Bool Lia DecimalString.
From stdpp Require Import base option strings list gmap fin_maps.

Local Open Scope string_scope.

(** ** Python values and exceptions *)

Inductive pyval : Type :=
  | VNone
  | VBool (b : bool)
  | VInt (n : Z)
  | VStr (s : string)
  | VDateTime (t : Z).

Global Instance pyval_eq_dec : EqDecision pyval.
Proof. solve_decision. Defined.

(** Truth value of an object, as tested by [if not x] and [x or y]. *)
Definition truthy (v : pyval) : bool :=
  match v with
  | VNone => false
  | VBool b => b
  | VInt n => negb (n =? 0)%Z
  | VStr s => negb (String.eqb s "")
  | VDateTime _ => true
  end.

(** [isinstance(v, bool)] *)
Definition is_bool (v : pyval) : bool :=
  match v with VBool _ => true | _ => false end.

(** [isinstance(v, str)] *)
Definition is_str (v : pyval) : bool :=
  match v with VStr _ => true | _ => false end.

Inductive exn_kind : Type :=
  | ValueError
  | TypeError
  | NotImplementedError
  | AttributeError
  | ImportError
  | IntegrityError.

Global Instance exn_kind_eq_dec : EqDecision exn_kind.
Proof. solve_decision. Defined.

(** An exception: its class and its message.  Format arguments of a
    message ([%r]) are not interpolated. *)
Record exn : Type := Exn { exn_class : exn_kind; exn_msg : string }.

Inductive result (A : Type) : Type :=
  | Ok (a : A)
  | Raise (e : exn).
Arguments Ok {A} a.
Arguments Raise {A} e.

(** ** Keyword dictionaries *)

(** [d.setdefault(k, v)] as a statement: [k] keeps its value when present. *)
Definition setdefault (k : string) (v : pyval) (d : gmap string pyval)
  : gmap string pyval :=
  match d !! k with
  | Some _ => d
  | None => <[k := v]> d
  end.

(** [d.get(k) is not True]: only the object [True] itself passes; an
    absent key gives [None]. *)
Definition get_is_not_True (d : gmap string pyval) (k : string) : bool :=
  match d !! k with
  | Some (VBool true) => false
  | _ => true
  end.

(** ** Text helpers used by the normalisers *)

Definition lower_ascii (c : ascii) : ascii :=
  let n := nat_of_ascii c in
  if (65 <=? n)%nat && (n <=? 90)%nat then ascii_of_nat (n + 32) else c.

(** [str.lower] on ASCII text; other bytes are left as they are. *)
Fixpoint lower (s : string) : string :=
  match s with
  | EmptyString => EmptyString
  | String c s' => String (lower_ascii c) (lower s')
  end.

Definition is_space (c : ascii) : bool :=
  let n := nat_of_ascii c in
  ((9 <=? n)%nat && (n <=? 13)%nat) || ((28 <=? n)%nat && (n <=? 32)%nat).

Fixpoint lstrip (s : string) : string :=
  match s with
  | EmptyString => EmptyString
  | String c s' => if is_space c then lstrip s' else s
  end.

Fixpoint rstrip (s : string) : string :=
  match s with
  | EmptyString => EmptyString
  | String c s' =>
      match rstrip s' with
      | EmptyString => if is_space c then EmptyString else String c EmptyString
      | r => String c r
      end
  end.

Definition strip (s : string) : string := rstrip (lstrip s).

(** [s.rsplit("@", 1)] when it yields two parts: the text before the last
    [@] and the text after it; [None] when [s] holds no [@] (the unpacking
    into two names then raises [ValueError]). *)
Fixpoint rsplit_at (s : string) : option (string * string) :=
  match s with
  | EmptyString => None
  | String c s' =>
      match rsplit_at s' with
      | Some (name, domain) => Some (String c name, domain)
      | None => if Ascii.eqb c "@" then Some (EmptyString, s') else None
      end
  end.

(** ** Collaborators of the identity factory *)

(** Modelled from the spec: [normalize_email] is inherited from the host
    framework's [BaseUserManager] and is not part of this module.  The spec
    says it lower-cases the domain portion of the address.  It takes
    [email or ""], splits the stripped text at its last [@] and lower-cases
    what follows; text without an [@] is returned as it was given. *)
Definition normalize_email (email : pyval) : result string :=
  match (if truthy email then email else VStr "") with
  | VStr s =>
      match rsplit_at (strip s) with
      | Some (email_name, domain_part) =>
          Ok (email_name ++ "@" ++ lower domain_part)
      | None => Ok s
      end
  | _ => Raise (Exn AttributeError "object has no attribute 'strip'")
  end.

(** What the host framework and the persistence engine provide to the
    factory.  [store] is the state of the persistent store. *)
Record Framework (store : Type) : Type := {
  (** Unicode NFKC normalisation, used by [normalize_username] *)
  nfkc : string -> string;
  (** the password hasher behind [set_password] *)
  make_password : pyval -> string;
  (** [timezone.now()], the default of [date_joined] *)
  timezone_now : Z;
  (** [user.save(using=self._db)]: the outcome, the instance as the engine
      leaves it, and the store afterwards *)
  save : gmap string pyval -> store -> result (gmap string pyval) * store
}.
Arguments nfkc {store} _ _.
Arguments make_password {store} _ _.
Arguments timezone_now {store} _.
Arguments save {store} _ _ _.

(** ** The [User] model *)

(** The fields of [User]: those declared in the class, [password] and
    [last_login] of [AbstractBaseUser], and the automatic key [id]. *)
Definition User_fields : list string :=
  ["id"; "password"; "last_login"; "username"; "first_name"; "last_name";
   "email"; "is_staff"; "is_superuser"; "is_active"; "date_joined"].

Definition User_defaults (now : Z) : gmap string pyval :=
  list_to_map
    [("id", VNone); ("password", VStr ""); ("last_login", VNone);
     ("username", VStr ""); ("first_name", VStr ""); ("last_name", VStr "");
     ("email", VStr ""); ("is_staff", VBool false);
     ("is_superuser", VBool false); ("is_active", VBool true);
     ("date_joined", VDateTime now)].

(** The constructor of [User], called with keywords: every field takes the keyword's value or its default;
    a keyword that names no field is a [TypeError]. *)
Definition User_init (now : Z) (kwargs : gmap string pyval)
  : result (gmap string pyval) :=
  if bool_decide (map_Forall (fun k _ => k ∈ User_fields) kwargs)
  then Ok (kwargs ∪ User_defaults now)
  else Raise (Exn TypeError "User() got unexpected keyword arguments").

(** The call [self.model(username=username, email=email, **extra_fields)]:
    a name given both as a keyword and in the dictionary is a [TypeError]. *)
Definition User_call (now : Z) (username email : pyval)
    (extra_fields : gmap string pyval) : result (gmap string pyval) :=
  if bool_decide (is_Some (extra_fields !! "username"))
     || bool_decide (is_Some (extra_fields !! "email"))
  then Raise (Exn TypeError "got multiple values for keyword argument")
  else User_init now (<["username" := username]> (<["email" := email]> extra_fields)).

(** ** The factory monad: state of the store and exceptions *)

Definition M (store A : Type) : Type := store -> result A * store.

Definition ret {store A} (a : A) : M store A := fun st => (Ok a, st).

Definition raise {store A} (k : exn_kind) (msg : string) : M store A :=
  fun st => (Raise (Exn k msg), st).

Definition bind {store A B} (m : M store A) (f : A -> M store B) : M store B :=
  fun st =>
    match m st with
    | (Ok a, st') => f a st'
    | (Raise e, st') => (Raise e, st')
    end.

(** A call that touches no state. *)
Definition pure_call {store A} (r : result A) : M store A := fun st => (r, st).

Notation "'let!' x ':=' m 'in' k" := (bind m (fun x => k))
  (at level 10, x name, m at level 100, k at level 200).

(** ** [UserManager] *)

Section UserManager.
Context {store : Type} (fw : Framework store).

(** [AbstractBaseUser.normalize_username]: NFKC for a string, anything
    else unchanged. *)
Definition normalize_username (username : pyval) : pyval :=
  match username with
  | VStr s => VStr (nfkc fw s)
  | _ => username
  end.

(** [user.set_password(password)] *)
Definition set_password (user : gmap string pyval) (raw_password : pyval)
  : gmap string pyval :=
  <["password" := VStr (make_password fw raw_password)]> user.

Definition _create_user (username email password : pyval)
    (extra_fields : gmap string pyval) : M store (gmap string pyval) :=
  if negb (truthy username)
  then raise ValueError "The given username must be set"
  else
    let! email := pure_call (normalize_email email) in
    let username := normalize_username username in
    let! user :=
      pure_call (User_call (timezone_now fw) username (VStr email) extra_fields) in
    let user := set_password user password in
    save fw user.

Definition create_user (username email password : pyval)
    (extra_fields : gmap string pyval) : M store (gmap string pyval) :=
  let extra_fields := setdefault "is_staff" (VBool false) extra_fields in
  let extra_fields := setdefault "is_superuser" (VBool false) extra_fields in
  _create_user username email password extra_fields.

Definition create_superuser (username email password : pyval)
    (extra_fields : gmap string pyval) : M store (gmap string pyval) :=
  let extra_fields := setdefault "is_staff" (VBool true) extra_fields in
  let extra_fields := setdefault "is_superuser" (VBool true) extra_fields in
  if get_is_not_True extra_fields "is_staff"
  then raise ValueError "Superuser must have is_staff=True."
  else if get_is_not_True extra_fields "is_superuser"
  then raise ValueError "Superuser must have is_superuser=True."
  else _create_user username email password extra_fields.

End UserManager.

(** An in-memory table standing for the persistence engine in the worked
    examples: [save] appends the row under the next key and rejects a
    username already present (the column is [unique]).  NFKC fixes ASCII
    text, the only text the examples use. *)
Definition table_has_username (u : pyval) (tbl : list (gmap string pyval)) : bool :=
  existsb (fun row => bool_decide (row !! "username" = Some u)) tbl.

Definition table_save (user : gmap string pyval) (tbl : list (gmap string pyval))
  : result (gmap string pyval) * list (gmap string pyval) :=
  match user !! "username" with
  | Some u =>
      if table_has_username u tbl
      then (Raise (Exn IntegrityError "A user with that username already exists."), tbl)
      else
        let row := <["id" := VInt (Z.of_nat (S (List.length tbl)))]> user in
        (Ok row, List.app tbl [row])
  | None => (Raise (Exn IntegrityError "username is required"), tbl)
  end.

Definition table_framework : Framework (list (gmap string pyval)) := {|
  nfkc := fun s => s;
  make_password := fun raw =>
    match raw with
    | VStr s => "hashed$" ++ s
    | _ => "!unusable"
    end;
  timezone_now := 1600000000;
  save := table_save
|}.

(** The instance that [_create_user] hands to [save] when nothing raised
    before: the keywords over the defaults, then the hashed password. *)
Definition built_user {store} (fw : Framework store)
    (username : pyval) (email : string) (password : pyval)
    (extra_fields : gmap string pyval) : gmap string pyval :=
  set_password fw
    (<["username" := normalize_username fw username]>
       (<["email" := VStr email]> extra_fields)
     ∪ User_defaults (timezone_now fw))
    password.

(** Keyword dictionaries that the constructor of [User] accepts next to
    [username] and [email]. *)
Definition accepted_keywords (extra_fields : gmap string pyval) : Prop :=
  map_Forall (fun k _ => k ∈ User_fields) extra_fields
  /\ extra_fields !! "username" = None
  /\ extra_fields !! "email" = None.

(** ** Permission lookup through an authentication backend *)

(** A queryset, as the rows it would yield. *)
Abbreviation QuerySet := (list (gmap string pyval)).

(** An authentication backend object.  [backend_with_perm] is its
    [with_perm] attribute when it has one: called with the permission,
    [is_active], [include_superusers] and [obj]. *)
Record Backend : Type := {
  backend_path : string;
  backend_with_perm :
    option (string -> bool -> bool -> pyval -> result QuerySet)
}.

(** [hasattr(backend, 'with_perm')] *)
Definition hasattr_with_perm (b : Backend) : bool :=
  match backend_with_perm b with Some _ => true | None => false end.

(** The deployment's authentication set-up: the ordered list of configured
    backends with their dotted paths, and what a dotted path imports to. *)
Record AuthConfig : Type := {
  configured : list (Backend * string);
  importable : string -> option Backend
}.

(** Modelled from the spec: [_get_backends] lives in the package's
    [__init__] module, which is not among the sources.  The spec describes
    it as the ordered list of backend implementations passed via
    configuration; with [return_tuples=True] each comes with its path. *)
Definition _get_backends (cfg : AuthConfig) : list (Backend * string) :=
  configured cfg.

(** Modelled from the spec: [load_backend] lives beside [_get_backends].
    The spec has the backend argument be a resolvable reference (string
    path); a path that resolves to nothing fails to import. *)
Definition load_backend (cfg : AuthConfig) (path : string) : result Backend :=
  match importable cfg path with
  | Some b => Ok b
  | None => Raise (Exn ImportError "No module named the given path")
  end.

(** What [with_perm] asks of its collaborators, in order. *)
Inductive event : Type :=
  | EvGetBackends
  | EvLoadBackend (path : string)
  | EvBackendWithPerm (path : string).

(** The tail of [UserManager.with_perm], once [backend] is an object. *)
Definition with_perm_dispatch (backend : Backend) (perm : string)
    (is_active include_superusers : bool) (obj : pyval) (trace : list event)
  : result QuerySet * list event :=
  match backend_with_perm backend with
  | Some f =>
      (f perm is_active include_superusers obj,
       List.app trace [EvBackendWithPerm (backend_path backend)])
  | None => (Ok [], trace)          (* self.none() *)
  end.

(** [UserManager.with_perm]; the result comes with the trace of the
    collaborators it consulted. *)
Definition with_perm (cfg : AuthConfig) (perm : string)
    (is_active include_superusers : bool) (backend obj : pyval)
  : result QuerySet * list event :=
  match backend with
  | VNone =>
      let backends := _get_backends cfg in
      match backends with
      | [(backend, _)] =>           (* len(backends) == 1 *)
          with_perm_dispatch backend perm is_active include_superusers obj
            [EvGetBackends]
      | _ =>
          (Raise (Exn ValueError
             "You have multiple authentication backends configured and therefore must provide the `backend` argument."),
           [EvGetBackends])
      end
  | VStr path =>
      match load_backend cfg path with
      | Ok backend =>
          with_perm_dispatch backend perm is_active include_superusers obj
            [EvLoadBackend path]
      | Raise e => (Raise e, [EvLoadBackend path])
      end
  | _ =>                             (* not isinstance(backend, str) *)
      (Raise (Exn TypeError
         "backend must be a dotted import path string (got %r)."), [])
  end.

(** ** [AnonymousUser] *)

(** The classes of the module. *)
Inductive pyclass : Type :=
  | ClsAnonymousUser
  | ClsUser
  | ClsUserPermission
  | ClsGroup
  | ClsAppOAuthCredentials
  | ClsOAuthUserSession.

Global Instance pyclass_eq_dec : EqDecision pyclass.
Proof. solve_decision. Defined.

(** An object as [__eq__] may meet it: a plain value, or an instance of a
    class of the module, known by its class and its identity. *)
Inductive pyobj : Type :=
  | ObjVal (v : pyval)
  | ObjInstance (c : pyclass) (addr : nat).

(** [isinstance(o, c)]; no class of the module derives from another. *)
Definition isinstance (o : pyobj) (c : pyclass) : bool :=
  match o with
  | ObjVal _ => false
  | ObjInstance c' _ => bool_decide (c' = c)
  end.

Module AnonymousUser.

(** An instance carries no state of its own, only its identity. *)
Record t : Type := Instance { addr : nat }.

Definition as_obj (self : t) : pyobj := ObjInstance ClsAnonymousUser (addr self).

(** [self.__class__] *)
Definition __class__ (self : t) : pyclass := ClsAnonymousUser.

Definition id (self : t) : pyval := VNone.
Definition pk (self : t) : pyval := VNone.
Definition username (self : t) : string := "".
Definition is_staff (self : t) : bool := false.
Definition is_active (self : t) : bool := false.
Definition is_superuser (self : t) : bool := false.

Definition __str__ (self : t) : string := "AnonymousUser".

Definition __eq__ (self : t) (other : pyobj) : bool :=
  isinstance other (__class__ self).

Definition __hash__ (self : t) : Z := 1.

Definition __int__ (self : t) : result Z :=
  Raise (Exn TypeError
    "Cannot cast AnonymousUser to int. Are you trying to use it in place of User?").

Definition no_db : exn :=
  Exn NotImplementedError
    "Djangae doesn't provide a DB representation for AnonymousUser.".

Definition save (self : t) : result unit := Raise no_db.
Definition delete (self : t) : result unit := Raise no_db.
Definition set_password (self : t) (raw_password : pyval) : result unit :=
  Raise no_db.
Definition check_password (self : t) (raw_password : pyval) : result bool :=
  Raise no_db.

Definition get_group_permissions (self : t) (obj : pyval) : list string := [].
Definition get_all_permissions (self : t) (obj : pyval) : list string := [].

Definition has_perm (self : t) (perm : string) (obj : pyval) : bool := false.

(** [all(self.has_perm(perm, obj) for perm in perm_list)] *)
Definition has_perms (self : t) (perm_list : list string) (obj : pyval) : bool :=
  forallb (fun perm => has_perm self perm obj) perm_list.

Definition has_module_perms (self : t) (module : string) : bool := false.

Definition is_anonymous (self : t) : bool := true.
Definition is_authenticated (self : t) : bool := false.
Definition get_username (self : t) : string := username self.

End AnonymousUser.

(** ** [OAuthUserSession] *)

Module OAuthUserSession.

(** The stored columns; [user] is the key of the owning [User]. *)
Record t : Type := Row {
  user : Z;
  authorization_code : string;
  access_token : string;
  refresh_token : string;
  id_token : string;
  token_type : string;
  expires_at : string;
  expires_in : string;
  scopes : gset string;
  token : string
}.

(** The body is [pass]: the call returns [None]. *)
Definition is_valid (self : t) : pyval := VNone.

Definition refresh (self : t) : pyval := VNone.

(** The spec's reading of the columns, used to state what it asks of
    [is_valid]: [expires_at] as a decimal timestamp lying before [now],
    and the three tokens present. *)
Definition spec_expires_in_past (now : Z) (self : t) : bool :=
  match NilEmpty.uint_of_string (expires_at self) with
  | Some d => (Z.of_uint d <? now)%Z
  | None => false
  end.

Definition spec_tokens_non_empty (self : t) : bool :=
  negb (String.eqb (access_token self) "")
  && negb (String.eqb (refresh_token self) "")
  && negb (String.eqb (id_token self) "").

End OAuthUserSession.

(** The backend that [with_perm] selects for a [backend] argument: the
    only configured one when the argument is [None], the one a path
    imports to when it is a string. *)
Inductive selects (cfg : AuthConfig) : pyval -> Backend -> Prop :=
  | selects_only b p :
      _get_backends cfg = [(b, p)] -> selects cfg VNone b
  | selects_named path b :
      load_backend cfg path = Ok b -> selects cfg (VStr path) b.

(** ** Worked configurations *)

(** A backend with permission lookup (it answers with one row per call)
    and one without. *)
Definition perm_backend : Backend := {|
  backend_path := "djangae.contrib.googleauth.backends.iap.IAPBackend";
  backend_with_perm := Some (fun perm is_active include_superusers obj =>
    Ok [{["username" := VStr "alice"; "is_active" := VBool is_active]}])
|}.

Definition plain_backend : Backend := {|
  backend_path := "djangae.contrib.googleauth.backends.oauth2.OAuthBackend";
  backend_with_perm := None
|}.

Definition import_table (path : string) : option Backend :=
  if String.eqb path (backend_path perm_backend) then Some perm_backend
  else if String.eqb path (backend_path plain_backend) then Some plain_backend
  else None.

Definition config_of (backends : list Backend) : AuthConfig := {|
  configured := List.map (fun b => (b, backend_path b)) backends;
  importable := import_table
|}.

Definition expired_session : OAuthUserSession.t := {|
  OAuthUserSession.user := 1;
  OAuthUserSession.authorization_code := "4/0AX4XfWh";
  OAuthUserSession.access_token := "ya29.a0AfH6SM";
  OAuthUserSession.refresh_token := "1//0gLrefresh";
  OAuthUserSession.id_token := "eyJhbGciOi";
  OAuthUserSession.token_type := "Bearer";
  OAuthUserSession.expires_at := "1500000000";
  OAuthUserSession.expires_in := "3599";
  OAuthUserSession.scopes := {["openid"; "email"]};
  OAuthUserSession.token := "{}"
|}.

(** ** [User] rows *)

Module User.

(** A row of [User] as the store gives it back: the text columns hold
    text, the flags booleans. *)
Record t : Type := Row {
  id : option Z;
  password : string;
  last_login : option Z;
  username : string;
  first_name : string;
  last_name : string;
  email : string;
  is_staff : bool;
  is_superuser : bool;
  is_active : bool;
  date_joined : Z
}.






(** [User.get_short_name] *)
Definition get_short_name (self : t) : string := first_name self.

End User.


(** The call raised and left the store as it was. *)
Definition raises_untouched {store A} (m : M store A) (st : store) : Prop :=
  exists e, m st = (Raise e, st).


(** * Properties *)

(** ** Keyword dictionaries *)

Lemma setdefault_lookup_eq k v (d : gmap string pyval) :
  setdefault k v d !! k = Some (default v (d !! k)).
Proof.
  unfold setdefault. destruct (d !! k) as [w|] eqn:E; simpl.
  - exact E.
  - apply lookup_insert_eq.
Qed.

Lemma setdefault_lookup_ne k k' v (d : gmap string pyval) :
  k <> k' -> setdefault k v d !! k' = d !! k'.
Proof.
  intros Hne. unfold setdefault. destruct (d !! k); [reflexivity|].
  by apply lookup_insert_ne.
Qed.

Lemma is_staff_field : "is_staff" ∈ User_fields.
Proof. unfold User_fields. set_solver. Qed.

Lemma is_superuser_field : "is_superuser" ∈ User_fields.
Proof. unfold User_fields. set_solver. Qed.

Lemma setdefault_Forall k v (d : gmap string pyval) :
  k ∈ User_fields ->
  map_Forall (fun k _ => k ∈ User_fields) d ->
  map_Forall (fun k _ => k ∈ User_fields) (setdefault k v d).
Proof.
  intros Hk Hd. unfold setdefault. destruct (d !! k); [exact Hd|].
  by apply map_Forall_insert_2.
Qed.


(** ** Worked examples *)

Example normalize_email_domain :
  normalize_email (VStr "Alice@EXAMPLE.com") = Ok "Alice@example.com".
Proof. reflexivity. Qed.

Example normalize_email_last_at :
  normalize_email (VStr "  a@B@C.D  ") = Ok "a@B@c.d".
Proof. reflexivity. Qed.

Example normalize_email_no_at :
  normalize_email (VStr " Alice ") = Ok " Alice ".
Proof. reflexivity. Qed.

Example normalize_email_None : normalize_email VNone = Ok "".
Proof. reflexivity. Qed.

(** [create_user] on the empty table stores one row, under key 1. *)
Example create_user_alice_row :
  create_user table_framework (VStr "alice") (VStr "Alice@EXAMPLE.com")
    (VStr "pw") ∅ []
  = (let row : gmap string pyval :=
       list_to_map
         [("id", VInt 1); ("password", VStr "hashed$pw"); ("last_login", VNone);
          ("username", VStr "alice"); ("first_name", VStr "");
          ("last_name", VStr ""); ("email", VStr "Alice@example.com");
          ("is_staff", VBool false); ("is_superuser", VBool false);
          ("is_active", VBool true); ("date_joined", VDateTime 1600000000)]
     in (Ok row, [row])).
Proof. vm_compute. reflexivity. Qed.

(** [is not True] refuses a value that merely equals [True]. *)
Example create_superuser_is_staff_1 :
  create_superuser table_framework (VStr "root") VNone (VStr "pw")
    {["is_staff" := VInt 1]} []
  = (Raise (Exn ValueError "Superuser must have is_staff=True."), []).
Proof. reflexivity. Qed.

(** A keyword that names no field of [User] is refused by the model. *)
Example create_user_unknown_keyword :
  create_user table_framework (VStr "bob") VNone (VStr "pw")
    {["email_lower" := VStr "bob@example.com"]} []
  = (Raise (Exn TypeError "User() got unexpected keyword arguments"), []).
Proof. vm_compute. reflexivity. Qed.

(** The one configured backend answers; two of them need the argument. *)
Example with_perm_one_backend :
  with_perm (config_of [perm_backend]) "auth.view_user" true true VNone VNone
  = (Ok [{["username" := VStr "alice"; "is_active" := VBool true]}],
     [EvGetBackends; EvBackendWithPerm (backend_path perm_backend)]).
Proof. reflexivity. Qed.

Example with_perm_named_backend :
  with_perm (config_of [perm_backend; plain_backend]) "auth.view_user" false true
    (VStr (backend_path perm_backend)) VNone
  = (Ok [{["username" := VStr "alice"; "is_active" := VBool false]}],
     [EvLoadBackend (backend_path perm_backend);
      EvBackendWithPerm (backend_path perm_backend)]).
Proof. reflexivity. Qed.

(** ** The identity factory *)

Section UserManagerFacts.
Context {store : Type} (fw : Framework store).

Lemma built_user_lookup username email password extra k :
  k <> "password" -> k <> "username" -> k <> "email" ->
  built_user fw username email password extra !! k
  = (extra ∪ User_defaults (timezone_now fw)) !! k.
Proof.
  intros Hp Hu He. unfold built_user, set_password.
  rewrite lookup_insert_ne by congruence.
  rewrite !lookup_union.
  rewrite lookup_insert_ne by congruence.
  rewrite lookup_insert_ne by congruence.
  reflexivity.
Qed.

Lemma built_user_keeps username email password extra k v :
  k <> "password" -> k <> "username" -> k <> "email" ->
  extra !! k = Some v ->
  built_user fw username email password extra !! k = Some v.
Proof.
  intros Hp Hu He Hk. rewrite built_user_lookup by assumption.
  apply lookup_union_Some_l. exact Hk.
Qed.

Lemma built_user_email username email password extra :
  built_user fw username email password extra !! "email" = Some (VStr email).
Proof.
  unfold built_user, set_password.
  rewrite lookup_insert_ne by discriminate.
  apply lookup_union_Some_l.
  rewrite lookup_insert_ne by discriminate.
  apply lookup_insert_eq.
Qed.

(** [_create_user] either raises with the store untouched, or is the one
    call of [save] on the built instance. *)
Lemma _create_user_cases username email password extra st :
  (exists e, _create_user fw username email password extra st = (Raise e, st))
  \/ (exists email',
        truthy username = true
        /\ normalize_email email = Ok email'
        /\ _create_user fw username email password extra st
           = save fw (built_user fw username email' password extra) st).
Proof.
  unfold _create_user.
  destruct (truthy username) eqn:Ht; simpl; [|left; eexists; reflexivity].
  unfold bind, pure_call.
  destruct (normalize_email email) as [email'|e] eqn:Hn;
    [|left; eexists; reflexivity].
  unfold User_call.
  destruct (_ || _); [left; eexists; reflexivity|].
  unfold User_init. case_bool_decide; [|left; eexists; reflexivity].
  right. exists email'. repeat split; reflexivity.
Qed.

Lemma _create_user_empty username email password extra st :
  truthy username = false ->
  _create_user fw username email password extra st
  = (Raise (Exn ValueError "The given username must be set"), st).
Proof. intros Ht. unfold _create_user. rewrite Ht. reflexivity. Qed.

Lemma _create_user_accepted username email email' password extra st :
  truthy username = true ->
  normalize_email email = Ok email' ->
  accepted_keywords extra ->
  _create_user fw username email password extra st
  = save fw (built_user fw username email' password extra) st.
Proof.
  intros Ht Hn (Hall & Hu & He). unfold _create_user.
  rewrite Ht. simpl. unfold bind, pure_call. rewrite Hn.
  unfold User_call. rewrite Hu, He.
  rewrite !bool_decide_eq_false_2 by (intros [? ?]; discriminate). simpl.
  unfold User_init. rewrite bool_decide_eq_true_2; [reflexivity|].
  apply map_Forall_insert_2; [set_solver|].
  apply map_Forall_insert_2; [set_solver|]. exact Hall.
Qed.

End UserManagerFacts.



(** C6. With an empty username, [create_user] and [create_superuser] both
    raise [ValueError] and leave the store as it was. *)
Theorem create_empty_username {store} (fw : Framework store)
    (username email password : pyval) (extra : gmap string pyval) (st : store) :
  truthy username = false ->
  (exists msg,
      create_user fw username email password extra st
      = (Raise (Exn ValueError msg), st))
  /\ (exists msg,
        create_superuser fw username email password extra st
        = (Raise (Exn ValueError msg), st)).
Proof.
  intros Ht. split.
  - unfold create_user. rewrite _create_user_empty by exact Ht.
    eexists. reflexivity.
  - unfold create_superuser.
    destruct (get_is_not_True _ "is_staff"); [eexists; reflexivity|].
    destruct (get_is_not_True _ "is_superuser"); [eexists; reflexivity|].
    rewrite _create_user_empty by exact Ht. eexists. reflexivity.
Qed.

Lemma create_empty_username_witness :
  (exists msg,
      create_user table_framework (VStr "") (VStr "a@b.c") (VStr "pw") ∅ []
      = (Raise (Exn ValueError msg), []))
  /\ (exists msg,
        create_superuser table_framework (VStr "") (VStr "a@b.c") (VStr "pw") ∅ []
        = (Raise (Exn ValueError msg), [])).
Proof.
  apply (create_empty_username table_framework (VStr "") (VStr "a@b.c")
           (VStr "pw") ∅ []).
  reflexivity.
Defined.

(** C10. [create_user] hands the flags on as the caller gave them, and as
    [False] only when absent: every call either raises with the store
    untouched or saves an instance carrying them; and with a username, an
    email that normalises and keywords the model accepts, it does save. *)
Theorem create_user_explicit_flags {store} (fw : Framework store)
    (username email password : pyval) (extra : gmap string pyval) (st : store)
    (flag : string) :
  flag = "is_staff" \/ flag = "is_superuser" ->
  ((exists e, create_user fw username email password extra st = (Raise e, st))
   \/ (exists u0,
         create_user fw username email password extra st = save fw u0 st
         /\ u0 !! flag = Some (default (VBool false) (extra !! flag))))
  /\ (truthy username = true ->
      (exists email', normalize_email email = Ok email') ->
      accepted_keywords extra ->
      exists u0,
        create_user fw username email password extra st = save fw u0 st
        /\ u0 !! flag = Some (default (VBool false) (extra !! flag))).
Proof.
  intros Hflag. unfold create_user.
  set (d := setdefault "is_superuser" (VBool false)
              (setdefault "is_staff" (VBool false) extra)).
  assert (Hd : d !! flag = Some (default (VBool false) (extra !! flag))).
  { unfold d. destruct Hflag as [-> | ->].
    - rewrite setdefault_lookup_ne by discriminate. apply setdefault_lookup_eq.
    - rewrite setdefault_lookup_eq.
      rewrite setdefault_lookup_ne by discriminate. reflexivity. }
  assert (Hkeep : forall email',
    built_user fw username email' password d !! flag
    = Some (default (VBool false) (extra !! flag))).
  { intros email'. apply built_user_keeps; [| | |exact Hd];
      intros ->; destruct Hflag; discriminate. }
  split.
  - destruct (_create_user_cases fw username email password d st)
      as [[e He]|(email' & _ & _ & Hs)].
    + left. exists e. exact He.
    + right. eexists. split; [exact Hs|apply Hkeep].
  - intros Ht [email' Hn] (Hall & Hu & He).
    exists (built_user fw username email' password d). split; [|apply Hkeep].
    apply _create_user_accepted; [exact Ht|exact Hn|].
    unfold d. repeat split.
    + apply setdefault_Forall; [exact is_superuser_field|].
      apply setdefault_Forall; [exact is_staff_field|]. exact Hall.
    + rewrite !setdefault_lookup_ne by discriminate. exact Hu.
    + rewrite !setdefault_lookup_ne by discriminate. exact He.
Qed.

(** A staff user created through [create_user] in the in-memory table. *)
Lemma create_user_explicit_flags_witness :
  exists u0,
    create_user table_framework (VStr "bob") (VStr "Bob@Example.org") (VStr "pw")
      {["is_staff" := VBool true]} []
    = table_save u0 []
    /\ u0 !! "is_staff" = Some (VBool true).
Proof.
  destruct (create_user_explicit_flags table_framework (VStr "bob")
              (VStr "Bob@Example.org") (VStr "pw") {["is_staff" := VBool true]} []
              "is_staff" (or_introl eq_refl)) as [_ H].
  apply H.
  - reflexivity.
  - eexists. vm_compute. reflexivity.
  - repeat split.
    apply map_Forall_singleton. exact is_staff_field.
Defined.

(** C5, as stated, fails: the row that [create_user] stores for
    [username="alice"], [email="Alice@EXAMPLE.com"] has no [email_lower]
    attribute, so it is not a record with
    [email_lower == "alice@example.com"]. *)
Lemma create_user_alice_no_email_lower :
  ~ (exists u tbl,
        create_user table_framework (VStr "alice") (VStr "Alice@EXAMPLE.com")
          (VStr "pw") ∅ []
        = (Ok u, tbl)
        /\ u !! "email_lower" = Some (VStr "alice@example.com")
        /\ u !! "email" = Some (VStr "Alice@example.com")).
Proof.
  intros (u & tbl & Hrun & Hlower & _).
  vm_compute in Hrun. injection Hrun as Hu _. subst u.
  vm_compute in Hlower. discriminate Hlower.
Qed.

(** C5, amended. Creating a user with [username="alice"] and
    [email="Alice@EXAMPLE.com"] saves an instance whose [email] is
    ["Alice@example.com"]: the local part is kept and only the domain is
    lower-cased.  The instance has no [email_lower] attribute. *)
Theorem create_user_alice_email {store} (fw : Framework store)
    (password : pyval) (st : store) :
  exists u0,
    create_user fw (VStr "alice") (VStr "Alice@EXAMPLE.com") password ∅ st
    = save fw u0 st
    /\ u0 !! "username" = Some (VStr (nfkc fw "alice"))
    /\ u0 !! "email" = Some (VStr "Alice@example.com")
    /\ u0 !! "email_lower" = None.
Proof.
  unfold create_user.
  set (d := setdefault "is_superuser" (VBool false)
              (setdefault "is_staff" (VBool false) ∅)).
  exists (built_user fw (VStr "alice") "Alice@example.com" password d).
  split; [|split; [|split]].
  - apply _create_user_accepted; [reflexivity|reflexivity|].
    unfold d. split; [|split; reflexivity].
    apply setdefault_Forall; [exact is_superuser_field|].
    apply setdefault_Forall; [exact is_staff_field|].
    apply map_Forall_empty.
  - unfold built_user, set_password.
    rewrite lookup_insert_ne by discriminate.
    apply lookup_union_Some_l. apply lookup_insert_eq.
  - apply built_user_email.
  - rewrite built_user_lookup by discriminate.
    apply lookup_union_None. split; reflexivity.
Qed.

(** ** Permission lookup *)

(** C2. With [backend=None]: when exactly one backend is configured,
    [with_perm] answers what that backend's lookup answers (the empty
    queryset when it has none); when the number of configured backends is
    not one, it raises [ValueError] having consulted no backend. *)
Theorem with_perm_default_backend (cfg : AuthConfig) (perm : string)
    (is_active include_superusers : bool) (obj : pyval) :
  (List.length (_get_backends cfg) = 1%nat ->
   exists b p,
     _get_backends cfg = [(b, p)]
     /\ fst (with_perm cfg perm is_active include_superusers VNone obj)
        = match backend_with_perm b with
          | Some f => f perm is_active include_superusers obj
          | None => Ok []
          end)
  /\ (List.length (_get_backends cfg) <> 1%nat ->
      exists msg,
        with_perm cfg perm is_active include_superusers VNone obj
        = (Raise (Exn ValueError msg), [EvGetBackends])).
Proof.
  unfold with_perm. split; intros Hlen.
  - destruct (_get_backends cfg) as [|[b p] [|? ?]]; try discriminate Hlen.
    exists b, p. split; [reflexivity|].
    unfold with_perm_dispatch. destruct (backend_with_perm b); reflexivity.
  - destruct (_get_backends cfg) as [|[b p] [|? ?]];
      [eexists; reflexivity|contradiction Hlen; reflexivity|eexists; reflexivity].
Qed.

Lemma with_perm_default_backend_witness :
  (exists b p,
      _get_backends (config_of [perm_backend]) = [(b, p)]
      /\ fst (with_perm (config_of [perm_backend]) "auth.view_user" true true VNone VNone)
         = match backend_with_perm b with
           | Some f => f "auth.view_user" true true VNone
           | None => Ok []
           end)
  /\ (exists msg,
        with_perm (config_of []) "auth.view_user" true true VNone VNone
        = (Raise (Exn ValueError msg), [EvGetBackends]))
  /\ (exists msg,
        with_perm (config_of [perm_backend; plain_backend]) "auth.view_user"
          true true VNone VNone
        = (Raise (Exn ValueError msg), [EvGetBackends])).
Proof.
  split; [|split].
  - apply (with_perm_default_backend (config_of [perm_backend])
             "auth.view_user" true true VNone).
    reflexivity.
  - apply (with_perm_default_backend (config_of []) "auth.view_user" true true VNone).
    simpl. lia.
  - apply (with_perm_default_backend (config_of [perm_backend; plain_backend])
             "auth.view_user" true true VNone).
    simpl. lia.
Defined.

(** C7. A [backend] argument that is neither [None] nor a string makes
    [with_perm] raise [TypeError] with no collaborator consulted: no
    backend list fetched, no backend loaded or called. *)
Theorem with_perm_backend_type (cfg : AuthConfig) (perm : string)
    (is_active include_superusers : bool) (backend obj : pyval) :
  backend <> VNone ->
  is_str backend = false ->
  exists msg,
    with_perm cfg perm is_active include_superusers backend obj
    = (Raise (Exn TypeError msg), []).
Proof.
  intros Hnone Hstr. unfold with_perm.
  destruct backend; try discriminate Hstr; try (eexists; reflexivity).
  contradiction Hnone. reflexivity.
Qed.

Lemma with_perm_backend_type_witness :
  exists msg,
    with_perm (config_of [perm_backend]) "auth.view_user" true true (VInt 42) VNone
    = (Raise (Exn TypeError msg), []).
Proof.
  apply (with_perm_backend_type (config_of [perm_backend]) "auth.view_user"
           true true (VInt 42) VNone).
  - discriminate.
  - reflexivity.
Defined.

(** C8. When the backend that [with_perm] selects has no [with_perm]
    attribute, the call returns the empty queryset and raises nothing. *)
Theorem with_perm_no_lookup (cfg : AuthConfig) (perm : string)
    (is_active include_superusers : bool) (backend obj : pyval) (b : Backend) :
  selects cfg backend b ->
  hasattr_with_perm b = false ->
  fst (with_perm cfg perm is_active include_superusers backend obj) = Ok [].
Proof.
  intros Hsel Hattr. unfold hasattr_with_perm in Hattr.
  inversion Hsel as [b' p Hcfg|path b' Hload]; subst; unfold with_perm.
  - rewrite Hcfg. unfold with_perm_dispatch.
    destruct (backend_with_perm b); [discriminate Hattr|reflexivity].
  - rewrite Hload. unfold with_perm_dispatch.
    destruct (backend_with_perm b); [discriminate Hattr|reflexivity].
Qed.

Lemma with_perm_no_lookup_witness :
  fst (with_perm (config_of [plain_backend]) "auth.view_user" true true VNone VNone)
  = Ok []
  /\ fst (with_perm (config_of [perm_backend; plain_backend]) "auth.view_user"
            true false (VStr (backend_path plain_backend)) VNone)
     = Ok [].
Proof.
  split.
  - apply (with_perm_no_lookup (config_of [plain_backend]) "auth.view_user"
             true true VNone VNone plain_backend).
    + apply (selects_only _ plain_backend (backend_path plain_backend)).
      reflexivity.
    + reflexivity.
  - apply (with_perm_no_lookup (config_of [perm_backend; plain_backend])
             "auth.view_user" true false (VStr (backend_path plain_backend))
             VNone plain_backend).
    + apply selects_named. reflexivity.
    + reflexivity.
Defined.

(** ** The anonymous identity *)

(** C9. Any two [AnonymousUser] instances compare equal and hash alike,
    and [int(...)] of any of them raises [TypeError]. *)
Theorem anonymous_eq_hash_int (a b : AnonymousUser.t) :
  AnonymousUser.__eq__ a (AnonymousUser.as_obj b) = true
  /\ AnonymousUser.__hash__ a = AnonymousUser.__hash__ b
  /\ exists msg, AnonymousUser.__int__ a = Raise (Exn TypeError msg).
Proof.
  split; [|split].
  - unfold AnonymousUser.__eq__, AnonymousUser.as_obj, isinstance.
    apply bool_decide_eq_true_2. reflexivity.
  - reflexivity.
  - eexists. reflexivity.
Qed.

(** Equality is by class, not by identity: a [User] instance or a plain
    value is never equal to an [AnonymousUser]. *)
Lemma anonymous_ne_other (a : AnonymousUser.t) (o : pyobj) :
  AnonymousUser.__eq__ a o = true -> exists n, o = ObjInstance ClsAnonymousUser n.
Proof.
  unfold AnonymousUser.__eq__, isinstance. destruct o as [v|c n]; [discriminate|].
  intros H. apply bool_decide_eq_true_1 in H. subst c. exists n. reflexivity.
Qed.

(** C4, as stated, fails: on the empty permission list [has_perms] resolves
    true, so the three checks are not all false for every list. *)
Lemma anonymous_has_perms_empty :
  ~ (AnonymousUser.has_perm (AnonymousUser.Instance 0) "auth.view_user" VNone = false
     /\ AnonymousUser.has_perms (AnonymousUser.Instance 0) [] VNone = false
     /\ AnonymousUser.has_module_perms (AnonymousUser.Instance 0) "auth" = false).
Proof. intros (_ & H & _). discriminate H. Qed.

(** C4, amended. For every [AnonymousUser], [has_perm] and
    [has_module_perms] resolve false for every argument; [has_perms]
    resolves false for every non-empty permission list and true for the
    empty one. *)
Theorem anonymous_permissions (a : AnonymousUser.t) (perm : string)
    (perm_list : list string) (module : string) (obj : pyval) :
  AnonymousUser.has_perm a perm obj = false
  /\ AnonymousUser.has_perms a perm_list obj
     = match perm_list with [] => true | _ :: _ => false end
  /\ AnonymousUser.has_module_perms a module = false.
Proof.
  split; [reflexivity|split; [|reflexivity]].
  destruct perm_list; reflexivity.
Qed.

(** ** The OAuth session *)

(** C3, as stated, fails: for a session whose [expires_at] lies in the past
    and whose tokens are present, [is_valid()] is not the boolean
    [False]. *)
Lemma is_valid_expired_not_False :
  ~ (OAuthUserSession.spec_expires_in_past 1700000000 expired_session = true ->
     OAuthUserSession.spec_tokens_non_empty expired_session = true ->
     OAuthUserSession.is_valid expired_session = VBool false).
Proof.
  intros H. specialize (H eq_refl eq_refl). discriminate H.
Qed.

(** C3, amended. For every session, whatever its expiry and tokens,
    [is_valid()] returns [None]: it raises nothing, and the value it gives
    is falsy without being a boolean. *)
Theorem is_valid_returns_None (self : OAuthUserSession.t) :
  OAuthUserSession.is_valid self = VNone
  /\ truthy (OAuthUserSession.is_valid self) = false
  /\ is_bool (OAuthUserSession.is_valid self) = false.
Proof. repeat split. Qed.


(** * Further properties of the module *)

(** ** Text *)





Lemma lower_app s1 s2 : lower (s1 ++ s2) = lower s1 ++ lower s2.
Proof.
  induction s1 as [|c s1 IH]; simpl; [reflexivity|]. rewrite IH. reflexivity.
Qed.






















(** ** [normalize_email] *)


Lemma normalize_email_falsy v : truthy v = false -> normalize_email v = Ok "".
Proof. intros H. unfold normalize_email. rewrite H. reflexivity. Qed.




(** ** The identity factory, continued *)

Lemma setdefault_insert_ne k k' v w (m : gmap string pyval) :
  k <> k' -> <[k' := w]> (setdefault k v m) = setdefault k v (<[k' := w]> m).
Proof.
  intros Hne. unfold setdefault. rewrite lookup_insert_ne by congruence.
  destruct (m !! k); [reflexivity|]. apply insert_insert_ne. congruence.
Qed.

(** A keyword set to the model's own default changes nothing. *)
Lemma User_init_setdefault now k v (m : gmap string pyval) :
  k ∈ User_fields ->
  User_defaults now !! k = Some v ->
  User_init now (setdefault k v m) = User_init now m.
Proof.
  intros Hk Hv. unfold setdefault. destruct (m !! k) eqn:E; [reflexivity|].
  unfold User_init.
  assert (Hmap : <[k := v]> m ∪ User_defaults now = m ∪ User_defaults now).
  { apply map_eq. intros j. rewrite !lookup_union.
    destruct (decide (k = j)) as [<-|Hne].
    - rewrite lookup_insert_eq, E, Hv. reflexivity.
    - rewrite lookup_insert_ne by exact Hne. reflexivity. }
  rewrite Hmap.
  rewrite (bool_decide_ext _ (map_Forall (fun k _ => k ∈ User_fields) m));
    [reflexivity|].
  rewrite map_Forall_insert by exact E. tauto.
Qed.

Lemma User_call_setdefault now username email k v (m : gmap string pyval) :
  k ∈ User_fields -> k <> "username" -> k <> "email" ->
  User_defaults now !! k = Some v ->
  User_call now username email (setdefault k v m) = User_call now username email m.
Proof.
  intros Hk Hu He Hv. unfold User_call.
  rewrite !setdefault_lookup_ne by assumption.
  destruct (_ || _); [reflexivity|].
  rewrite !setdefault_insert_ne by assumption.
  apply User_init_setdefault; assumption.
Qed.

Section UserManagerMore.
Context {store : Type} (fw : Framework store).

Lemma _create_user_setdefault username email password k v extra st :
  k ∈ User_fields -> k <> "username" -> k <> "email" ->
  User_defaults (timezone_now fw) !! k = Some v ->
  _create_user fw username email password (setdefault k v extra) st
  = _create_user fw username email password extra st.
Proof.
  intros Hk Hu He Hv. unfold _create_user.
  destruct (negb (truthy username)); [reflexivity|].
  unfold bind, pure_call. destruct (normalize_email email); [|reflexivity].
  rewrite User_call_setdefault by assumption. reflexivity.
Qed.

Lemma _create_user_saves username email password extra st :
  (exists e, _create_user fw username email password extra st = (Raise e, st))
  \/ (exists email',
        truthy username = true
        /\ normalize_email email = Ok email'
        /\ accepted_keywords extra
        /\ _create_user fw username email password extra st
           = save fw (built_user fw username email' password extra) st).
Proof.
  unfold _create_user.
  destruct (truthy username) eqn:Ht; simpl; [|left; eexists; reflexivity].
  unfold bind, pure_call.
  destruct (normalize_email email) as [email'|e] eqn:Hn;
    [|left; eexists; reflexivity].
  unfold User_call.
  destruct (extra !! "username") eqn:Eu; [left; eexists; reflexivity|].
  destruct (extra !! "email") eqn:Ee; [left; eexists; reflexivity|].
  rewrite !bool_decide_eq_false_2 by (intros [? ?]; discriminate). simpl.
  unfold User_init. case_bool_decide as Hall; [|left; eexists; reflexivity].
  right. exists email'. repeat split; try reflexivity; try assumption.
  intros k w Hk. apply (Hall k w).
  rewrite lookup_insert_ne by congruence.
  rewrite lookup_insert_ne by congruence. exact Hk.
Qed.



End UserManagerMore.

Section UserManagerExtra.
Context {store : Type} (fw : Framework store).

Lemma create_user_unfold username email password extra st :
  create_user fw username email password extra st
  = _create_user fw username email password extra st.
Proof.
  unfold create_user.
  rewrite !_create_user_setdefault;
    [reflexivity|exact is_staff_field|discriminate|discriminate|reflexivity
    |exact is_superuser_field|discriminate|discriminate|reflexivity].
Qed.

Lemma setdefault_present k v w (m : gmap string pyval) :
  m !! k = Some w -> setdefault k v m = m.
Proof. intros H. unfold setdefault. rewrite H. reflexivity. Qed.

Lemma setdefault_absent k v (m : gmap string pyval) :
  m !! k = None -> setdefault k v m = <[k := v]> m.
Proof. intros H. unfold setdefault. rewrite H. reflexivity. Qed.

Lemma setdefault_as_insert k v (m : gmap string pyval) :
  m !! k = None \/ m !! k = Some v -> setdefault k v m = <[k := v]> m.
Proof.
  intros [H|H].
  - apply setdefault_absent, H.
  - rewrite (setdefault_present _ _ _ _ H). symmetry. apply insert_id, H.
Qed.


End UserManagerExtra.

(** X1. [create_user] behaves as [_create_user] on the same arguments:
    the [False] it fills in for an absent [is_staff] or [is_superuser] is
    what the field defaults of [User] give anyway. *)
Theorem create_user_defaults_redundant {store} (fw : Framework store)
    (username email password : pyval) (extra : gmap string pyval) (st : store) :
  create_user fw username email password extra st
  = _create_user fw username email password extra st.
Proof. apply create_user_unfold. Qed.

(** X2. When neither flag is given as something other than [True],
    [create_superuser] is [create_user] with both flags set to [True]. *)
Theorem create_superuser_as_create_user {store} (fw : Framework store)
    (username email password : pyval) (extra : gmap string pyval) (st : store) :
  extra !! "is_staff" = None \/ extra !! "is_staff" = Some (VBool true) ->
  extra !! "is_superuser" = None \/ extra !! "is_superuser" = Some (VBool true) ->
  create_superuser fw username email password extra st
  = create_user fw username email password
      (<["is_superuser" := VBool true]> (<["is_staff" := VBool true]> extra)) st.
Proof.
  intros Hstaff Hsuper. rewrite create_user_unfold. unfold create_superuser.
  rewrite (setdefault_as_insert "is_staff") by exact Hstaff.
  rewrite (setdefault_as_insert "is_superuser")
    by (rewrite lookup_insert_ne by discriminate; exact Hsuper).
  unfold get_is_not_True.
  rewrite lookup_insert_ne by discriminate.
  rewrite !lookup_insert_eq. reflexivity.
Qed.

Lemma create_superuser_as_create_user_witness :
  create_superuser table_framework (VStr "root") (VStr "root@Example.ORG")
    (VStr "pw") {["first_name" := VStr "Rita"]} []
  = create_user table_framework (VStr "root") (VStr "root@Example.ORG") (VStr "pw")
      (<["is_superuser" := VBool true]>
         (<["is_staff" := VBool true]> {["first_name" := VStr "Rita"]})) [].
Proof.
  apply (create_superuser_as_create_user table_framework (VStr "root")
           (VStr "root@Example.ORG") (VStr "pw") {["first_name" := VStr "Rita"]} []).
  - left. reflexivity.
  - left. reflexivity.
Defined.

(** X3. [create_superuser] refuses any given flag value other than the
    object [True] (also [None], [1] or a string): it raises [ValueError]
    and leaves the store as it was. *)
Theorem create_superuser_flag_not_True {store} (fw : Framework store)
    (username email password : pyval) (extra : gmap string pyval) (st : store)
    (flag : string) (v : pyval) :
  flag = "is_staff" \/ flag = "is_superuser" ->
  extra !! flag = Some v ->
  v <> VBool true ->
  exists msg,
    create_superuser fw username email password extra st
    = (Raise (Exn ValueError msg), st).
Proof.
  intros Hflag Hv Hne. unfold create_superuser.
  set (d := setdefault "is_superuser" (VBool true)
              (setdefault "is_staff" (VBool true) extra)).
  assert (Hd : d !! flag = Some v).
  { unfold d. destruct Hflag as [-> | ->].
    - rewrite setdefault_lookup_ne by discriminate.
      rewrite setdefault_lookup_eq, Hv. reflexivity.
    - rewrite setdefault_lookup_eq.
      rewrite setdefault_lookup_ne by discriminate. rewrite Hv. reflexivity. }
  assert (Hbad : get_is_not_True d flag = true).
  { unfold get_is_not_True. rewrite Hd.
    destruct v as [| [|] | | |]; try reflexivity. contradiction Hne. reflexivity. }
  destruct Hflag as [-> | ->].
  - rewrite Hbad. eexists. reflexivity.
  - destruct (get_is_not_True d "is_staff"); [eexists; reflexivity|].
    rewrite Hbad. eexists. reflexivity.
Qed.

Lemma create_superuser_flag_not_True_witness :
  exists msg,
    create_superuser table_framework (VStr "root") VNone (VStr "pw")
      {["is_superuser" := VInt 1]} []
    = (Raise (Exn ValueError msg), []).
Proof.
  apply (create_superuser_flag_not_True table_framework (VStr "root") VNone
           (VStr "pw") {["is_superuser" := VInt 1]} [] "is_superuser" (VInt 1)).
  - right. reflexivity.
  - reflexivity.
  - discriminate.
Defined.





(** X7. With no email ([None], or an empty string) [create_user] saves
    the empty string as the email. *)
Theorem create_user_email_absent {store} (fw : Framework store)
    (username email password : pyval) (extra : gmap string pyval) (st : store) :
  truthy email = false ->
  raises_untouched (create_user fw username email password extra) st
  \/ exists u0,
       create_user fw username email password extra st = save fw u0 st
       /\ u0 !! "email" = Some (VStr "").
Proof.
  intros He. unfold raises_untouched. rewrite create_user_unfold.
  destruct (_create_user_saves fw username email password extra st)
    as [Hr|(email' & _ & Hn & _ & Hsave)]; [left; exact Hr|].
  right. eexists. split; [exact Hsave|].
  rewrite normalize_email_falsy in Hn by exact He. injection Hn as <-.
  apply built_user_email.
Qed.

Lemma create_user_email_absent_witness :
  exists u0,
    create_user table_framework (VStr "bob") VNone (VStr "pw") ∅ []
    = table_save u0 []
    /\ u0 !! "email" = Some (VStr "").
Proof.
  destruct (create_user_email_absent table_framework (VStr "bob") VNone
              (VStr "pw") ∅ [] eq_refl)
    as [[e He]|H].
  - vm_compute in He. discriminate He.
  - exact H.
Defined.


(** ** Permission lookup, continued *)

(** X9. When the backend that [with_perm] selects has a [with_perm] of its
    own, the answer is that method's answer on the same [perm],
    [is_active], [include_superusers] and [obj], errors included. *)
Theorem with_perm_delegates (cfg : AuthConfig) (perm : string)
    (is_active include_superusers : bool) (backend obj : pyval) (b : Backend)
    (f : string -> bool -> bool -> pyval -> result QuerySet) :
  selects cfg backend b ->
  backend_with_perm b = Some f ->
  fst (with_perm cfg perm is_active include_superusers backend obj)
  = f perm is_active include_superusers obj.
Proof.
  intros Hsel Hf.
  inversion Hsel as [b' p Hcfg|path b' Hload]; subst; unfold with_perm.
  - rewrite Hcfg. unfold with_perm_dispatch. rewrite Hf. reflexivity.
  - rewrite Hload. unfold with_perm_dispatch. rewrite Hf. reflexivity.
Qed.

Lemma with_perm_delegates_witness :
  fst (with_perm (config_of [perm_backend; plain_backend]) "auth.view_user"
         false true (VStr (backend_path perm_backend)) (VInt 3))
  = Ok [{["username" := VStr "alice"; "is_active" := VBool false]}].
Proof.
  exact (with_perm_delegates (config_of [perm_backend; plain_backend])
           "auth.view_user" false true (VStr (backend_path perm_backend))
           (VInt 3) perm_backend _
           (selects_named (config_of [perm_backend; plain_backend])
              (backend_path perm_backend) perm_backend eq_refl)
           eq_refl).
Defined.

(** X10. With a backend named by its path, [with_perm] never fetches the
    configured backends: the outcome is the same whatever and however many
    they are, so the multiple-backends error cannot arise. *)
Theorem with_perm_named_ignores_configured (cfg : AuthConfig) (perm : string)
    (is_active include_superusers : bool) (path : string) (obj : pyval)
    (backends : list (Backend * string)) :
  with_perm cfg perm is_active include_superusers (VStr path) obj
  = with_perm {| configured := backends; importable := importable cfg |}
      perm is_active include_superusers (VStr path) obj
  /\ EvGetBackends ∉ snd (with_perm cfg perm is_active include_superusers
                            (VStr path) obj).
Proof.
  split; [reflexivity|].
  unfold with_perm, load_backend. destruct (importable cfg path) as [b|]; simpl.
  - unfold with_perm_dispatch. destruct (backend_with_perm b); simpl.
    + intros H. apply elem_of_cons in H as [H|H]; [discriminate H|].
      apply list_elem_of_singleton in H. discriminate H.
    + intros H. apply list_elem_of_singleton in H. discriminate H.
  - intros H. apply list_elem_of_singleton in H. discriminate H.
Qed.

(** ** [User] rows *)








(** ** The anonymous identity, continued *)

(** X15. The permission checks of [AnonymousUser] agree with its
    permission listings: [has_perm] holds exactly for the members of
    [get_all_permissions], [has_perms] exactly when every listed permission
    is one, and the group permissions are among all permissions. *)
Theorem anonymous_permissions_consistent (a : AnonymousUser.t) (obj : pyval)
    (perm : string) (perm_list : list string) :
  AnonymousUser.has_perm a perm obj
    = bool_decide (perm ∈ AnonymousUser.get_all_permissions a obj)
  /\ (AnonymousUser.has_perms a perm_list obj = true
      <-> Forall (fun p => p ∈ AnonymousUser.get_all_permissions a obj) perm_list)
  /\ AnonymousUser.get_group_permissions a obj
       ⊆ AnonymousUser.get_all_permissions a obj.
Proof.
  split; [|split].
  - unfold AnonymousUser.has_perm, AnonymousUser.get_all_permissions.
    symmetry. apply bool_decide_eq_false_2. apply not_elem_of_nil.
  - unfold AnonymousUser.has_perms, AnonymousUser.get_all_permissions.
    destruct perm_list as [|p l]; simpl.
    + split; [constructor|reflexivity].
    + split; [discriminate|].
      intros H. inversion H as [|? ? Hp _]. apply not_elem_of_nil in Hp. contradiction.
  - unfold AnonymousUser.get_group_permissions. apply list_subseteq_nil.
Qed.

Lemma anonymous_permissions_consistent_witness :
  AnonymousUser.has_perms (AnonymousUser.Instance 0) [] VNone = true.
Proof.
  apply (proj2 (proj1 (proj2 (anonymous_permissions_consistent
                                (AnonymousUser.Instance 0) VNone "auth.view_user" [])))).
  constructor.
Defined.

(** X16. An [AnonymousUser] compares equal to an object exactly when that
    object is an [AnonymousUser] instance: never to a [User] or to a plain
    value such as [None]. *)
Theorem anonymous_eq_iff (a : AnonymousUser.t) (o : pyobj) :
  AnonymousUser.__eq__ a o = true <-> exists n, o = ObjInstance ClsAnonymousUser n.
Proof.
  unfold AnonymousUser.__eq__, isinstance. split.
  - destruct o as [v|c n]; [discriminate|].
    intros H. apply bool_decide_eq_true_1 in H. subst c. exists n. reflexivity.
  - intros [n ->]. apply bool_decide_eq_true_2. reflexivity.
Qed.

Lemma anonymous_eq_iff_witness :
  AnonymousUser.__eq__ (AnonymousUser.Instance 1) (ObjInstance ClsAnonymousUser 2) = true.
Proof.
  apply (proj2 (anonymous_eq_iff (AnonymousUser.Instance 1)
                  (ObjInstance ClsAnonymousUser 2))).
  exists 2%nat. reflexivity.
Defined.
